(** * MRXS-to-PNG converter: a shallow embedding of [src/main.py]

    The repository has one function, [safe_convert_mrxs_to_jpg_with_crop].
    It drives four external libraries (OpenSlide, Pillow, NumPy/OpenCV and
    tqdm) and the wall clock.  The embedding keeps the control flow, the
    exception handling, the timing dictionary and the arithmetic of the
    function, and takes the libraries as an interface ([Externals]) whose
    operations may raise.

    - Python floats are IEEE-754 binary64 values ([spec_float] with
      [prec = 53], [emax = 1024]); [int * float] and [int(float)] follow
      Python's rules, including the errors on infinities and NaN.
    - Readings of [time.time()] and the durations derived from them are
      rationals: only their sign and their being zero matter below, and a
      binary64 difference has the sign of the exact difference.
    - [timing_info] is a dictionary with string keys ([gmap string Q]).
    - Every call that is observable from outside (slide reads, progress bar
      updates, sleeps, writes to [timing_info], the file save) is appended to
      a trace, in program order.
    - The calls of tqdm, [time.time], [time.sleep] and the closing of the
      slide do not raise; every other library call may. *)

From Stdlib Require Import ZArith QArith Qabs Qround Lqa String SpecFloat DecimalString.
From stdpp Require Import gmap strings list.

Local Open Scope string_scope.
Local Open Scope Z_scope.

(** ** Python values *)

(** An exception object: its class name and the text [str(e)] yields. *)
Record exn : Type := Exception { exn_class : string; exn_text : string }.

Definition str (e : exn) : string := exn_text e.

(** The outcome of evaluating an expression: a value or a raised exception. *)
Inductive outcome (A : Type) : Type :=
| Val (a : A)
| Exc (e : exn).
Arguments Val {A} a.
Arguments Exc {A} e.

Definition IndexError : exn := Exception "IndexError" "tuple index out of range".
Definition OverflowError_inf : exn :=
  Exception "OverflowError" "cannot convert float infinity to integer".
Definition ValueError_nan : exn :=
  Exception "ValueError" "cannot convert float NaN to integer".
Definition OverflowError_int : exn :=
  Exception "OverflowError" "int too large to convert to float".
Definition ValueError_max : exn :=
  Exception "ValueError" "max() arg is an empty sequence".
Definition AttributeError_convert : exn :=
  Exception "AttributeError" "'NoneType' object has no attribute 'convert'".

(** [t[i]] on a tuple: negative indices count from the end, anything out of
    range raises [IndexError]. *)
Definition py_getitem {A : Type} (t : list A) (i : Z) : outcome A :=
  let n := Z.of_nat (length t) in
  let j := if i <? 0 then i + n else i in
  if (0 <=? j) && (j <? n)
  then match t !! Z.to_nat j with
       | Some a => Val a
       | None => Exc IndexError
       end
  else Exc IndexError.

(** [max(l, key=key)]: the first element whose key is not exceeded by any
    later one; an empty sequence raises [ValueError]. *)
Definition Qgtb (a b : Q) : bool := negb (Qle_bool a b).

Definition py_max_step {A : Type} (key : A → Q) (best item : A) : A :=
  if Qgtb (key item) (key best) then item else best.

Definition py_max {A : Type} (key : A → Q) (l : list A) : outcome A :=
  match l with
  | [] => Exc ValueError_max
  | first :: rest => Val (fold_left (py_max_step key) rest first)
  end.

(** [range(n)] *)
Definition py_range (n : nat) : list Z := map Z.of_nat (seq 0 n).

(** [f"{n}"] for an integer. *)
Definition py_format_int (n : Z) : string := NilZero.string_of_int (Z.to_int n).

(** ** Python floats *)
Module PyFloat.

Definition prec : Z := 53.
Definition emax : Z := 1024.

Definition float : Type := spec_float.

(** [float(n)] for an integer, correctly rounded; too large an integer
    raises [OverflowError]. *)
Definition of_int (n : Z) : outcome float :=
  match binary_normalize prec emax n 0 false with
  | S754_infinity _ => Exc OverflowError_int
  | f => Val f
  end.

Definition mul (a b : float) : float := SFmul prec emax a b.

(** [n * d] with [n] an [int] and [d] a [float]: [n] is converted first. *)
Definition int_mul (n : Z) (d : float) : outcome float :=
  match of_int n with
  | Val f => Val (mul f d)
  | Exc e => Exc e
  end.

(** [int(f)]: the integer part, rounding toward zero. *)
Definition to_int (f : float) : outcome Z :=
  match f with
  | S754_zero _ => Val 0
  | S754_finite s m e =>
      Val (if 0 <=? e
           then cond_Zopp s (Z.pos m * 2 ^ e)
           else Z.quot (cond_Zopp s (Z.pos m)) (2 ^ (- e)))
  | S754_infinity _ => Exc OverflowError_inf
  | S754_nan => Exc ValueError_nan
  end.

(** Mathematical floor of a float, where it has one. *)
Definition floor (f : float) : option Z :=
  match f with
  | S754_zero _ => Some 0
  | S754_finite s m e =>
      Some (if 0 <=? e
            then cond_Zopp s (Z.pos m * 2 ^ e)
            else Z.div (cond_Zopp s (Z.pos m)) (2 ^ (- e)))
  | _ => None
  end.

(** The sign bit; NaN has none. *)
Definition sign (f : float) : option bool :=
  match f with
  | S754_zero s | S754_infinity s | S754_finite s _ _ => Some s
  | S754_nan => None
  end.

(** The sign bit is set. *)
Definition is_negative (f : float) : bool :=
  match sign f with
  | Some true => true
  | _ => false
  end.

Definition one : float := SFone prec emax.

(** [1.0 <= d], the invariant of a downsample factor. *)
Definition ge_one (d : float) : bool := SFleb one d.

(** The float literals [4.0] and [16.0]. *)
Definition lit_4 : float := S754_finite false 4503599627370496 (-50).
Definition lit_16 : float := S754_finite false 4503599627370496 (-48).

End PyFloat.

(** ** OpenCV: [cv2.threshold] *)

(** A single-channel 8-bit array, row by row. *)
Abbreviation plane := (list (list Z)).

Inductive threshold_type : Type :=
| THRESH_BINARY
| THRESH_BINARY_INV
| THRESH_TRUNC
| THRESH_TOZERO
| THRESH_TOZERO_INV.

Definition threshold_pixel (thresh maxval : Z) (ty : threshold_type) (p : Z) : Z :=
  match ty with
  | THRESH_BINARY => if p >? thresh then maxval else 0
  | THRESH_BINARY_INV => if p >? thresh then 0 else maxval
  | THRESH_TRUNC => if p >? thresh then thresh else p
  | THRESH_TOZERO => if p >? thresh then p else 0
  | THRESH_TOZERO_INV => if p >? thresh then 0 else p
  end.

(** [cv2.threshold(src, thresh, maxval, type)] returns the pair of the
    threshold used and the thresholded array. *)
Definition cv2_threshold (src : plane) (thresh maxval : Z) (ty : threshold_type)
  : Z * plane :=
  (thresh, map (map (threshold_pixel thresh maxval ty)) src).

Inductive retrieval_mode : Type := RETR_EXTERNAL | RETR_LIST | RETR_CCOMP | RETR_TREE.
Inductive approx_method : Type :=
  CHAIN_APPROX_NONE | CHAIN_APPROX_SIMPLE | CHAIN_APPROX_TC89_L1 | CHAIN_APPROX_TC89_KCOS.

(** ** The external libraries

    What the function asks of OpenSlide, Pillow, NumPy, OpenCV and the clock.
    Every library call that can fail returns an [outcome].  The attributes
    [level_count], [level_dimensions] and [level_downsamples] of an open
    slide are plain values. *)
Class Externals : Type := {
  slide_handle : Type;
  pil_image : Type;
  ndarray : Type;
  contour : Type;
  file_data : Type;
  (** [time.time()]: the reading returned by the n-th call of the run *)
  clock : nat → Q;
  (** [OpenSlide(path)] and the attributes and method of the slide *)
  OpenSlide : string → outcome slide_handle;
  level_count : slide_handle → Z;
  level_dimensions : slide_handle → list (Z * Z);
  level_downsamples : slide_handle → list PyFloat.float;
  read_region : slide_handle → Z * Z → Z → Z * Z → outcome pil_image;
  (** [img.convert(mode)] and [img.save(fp, format, quality=, optimize=, progressive=)] *)
  pil_convert : pil_image → string → outcome pil_image;
  pil_save : pil_image → string → string → Z → bool → bool → outcome file_data;
  (** [np.array(img)] *)
  np_array : pil_image → outcome ndarray;
  (** [cv2.cvtColor(a, cv2.COLOR_RGB2GRAY)], [cv2.findContours],
      [cv2.contourArea], [cv2.boundingRect] *)
  cv2_cvtColor_RGB2GRAY : ndarray → outcome plane;
  cv2_findContours : plane → retrieval_mode → approx_method → outcome (list contour);
  cv2_contourArea : contour → Q;
  cv2_boundingRect : contour → Z * Z * Z * Z
}.

(** The two tqdm progress bars of the function. *)
Inductive bar : Type := main_progress | read_progress.

(** What a run does to the outside world, in program order. *)
Inductive event {ext : Externals} : Type :=
| SlideOpen (path : string)
| SlideClose
| ReadRegion (location : Z * Z) (level : Z) (size : Z * Z)
| BarNew (b : bar) (total : Z) (desc : string)
| BarSetDescription (b : bar) (desc : string)
| BarUpdate (b : bar) (n : Z)
| BarClose (b : bar)
| Sleep (seconds : Q)
| TimingSet (key : string) (value : Q)
| ImageSave (img : pil_image) (fp format : string) (quality : Z)
            (optimize progressive : bool).

(** The state a run threads: how often the clock was read, the dictionary
    bound to [timing_info], the files on disk, and the trace so far. *)
Record store {ext : Externals} : Type := Store {
  time_calls : nat;
  timing_info : gmap string Q;
  files : gmap string file_data;
  trace : list event
}.
Arguments Store {_} _ _ _ _.

(** The value the function returns: [(success, message, timing_info)]. *)
Definition result_triple : Type := bool * string * gmap string Q.

Declare Scope py_scope.
Delimit Scope py_scope with py.

Section Monad.
Context {ext : Externals}.

(** Statements: state in, outcome and state out.  An exception keeps the
    state reached when it was raised. *)
Definition M (A : Type) : Type := store → outcome A * store.

Definition ret {A : Type} (a : A) : M A := fun s => (Val a, s).

Definition bind {A B : Type} (m : M A) (k : A → M B) : M B :=
  fun s =>
    match m s with
    | (Val a, s') => k a s'
    | (Exc e, s') => (Exc e, s')
    end.

Definition lift {A : Type} (o : outcome A) : M A := fun s => (o, s).

Definition emit (ev : event) : M unit :=
  fun s => (Val tt, Store (time_calls s) (timing_info s) (files s) (trace s ++ [ev])).

(** [time.time()] *)
Definition time_time : M Q :=
  fun s => (Val (clock (time_calls s)),
            Store (S (time_calls s)) (timing_info s) (files s) (trace s)).

(** [time.sleep(seconds)] *)
Definition time_sleep (seconds : Q) : M unit := emit (Sleep seconds).

(** [timing_info = d] *)
Definition timing_bind (d : gmap string Q) : M unit :=
  fun s => (Val tt, Store (time_calls s) d (files s) (trace s)).

(** [timing_info[key] = value] *)
Definition timing_set (key : string) (value : Q) : M unit :=
  fun s => (Val tt,
            Store (time_calls s) (<[key := value]> (timing_info s)) (files s)
                  (trace s ++ [TimingSet key value])).

(** the expression [timing_info] *)
Definition timing_get : M (gmap string Q) := fun s => (Val (timing_info s), s).

(** the file [fp] receives [data] *)
Definition file_write (fp : string) (data : file_data) : M unit :=
  fun s => (Val tt,
            Store (time_calls s) (timing_info s) (<[fp := data]> (files s)) (trace s)).

(** [try: body  except Exception as e: handler e] *)
Definition try_except {A : Type} (body : M A) (handler : exn → M A) : M A :=
  fun s =>
    match body s with
    | (Val a, s') => (Val a, s')
    | (Exc e, s') => handler e s'
    end.

(** [with OpenSlide(path) as slide: body slide]: the slide is closed when
    the block is left, by a return or by an exception. *)
Definition with_OpenSlide {A : Type} (path : string) (body : slide_handle → M A) : M A :=
  bind (emit (SlideOpen path)) (fun _ =>
  bind (lift (OpenSlide path)) (fun slide =>
  fun s =>
    match body slide s with
    | (r, s') =>
        (r, Store (time_calls s') (timing_info s') (files s') (trace s' ++ [SlideClose]))
    end)).

End Monad.

Notation "x <- m ;; k" := (bind m (fun x => k))
  (at level 100, m at next level, right associativity) : py_scope.
Notation "m ;;; k" := (bind m (fun _ => k))
  (at level 100, right associativity) : py_scope.

(** ** The function [safe_convert_mrxs_to_jpg_with_crop] *)
Section Converter.
Context {ext : Externals}.
Local Open Scope py_scope.


(** The dictionary literal bound to [timing_info]. *)
Definition timing_zero : gmap string Q :=
  <["total" := 0%Q]> (<["detection" := 0%Q]> (<["coordinate_calc" := 0%Q]>
  (<["image_reading" := 0%Q]> (<["processing" := 0%Q]> (<["saving" := 0%Q]> ∅))))).

(** Step 1, first half: read the lowest-resolution level. *)
Definition read_low_res (slide : slide_handle) : M (Z * ndarray) :=
  emit (BarSetDescription main_progress "Detecting image region") ;;;
  step_start <- time_time ;;
  let low_res_level := level_count slide - 1 in
  dims <- lift (py_getitem (level_dimensions slide) low_res_level) ;;
  emit (ReadRegion (0, 0) low_res_level dims) ;;;
  low_res_img <- lift (read_region slide (0, 0) low_res_level dims) ;;
  low_res_img <- lift (pil_convert low_res_img "RGB") ;;
  low_res_img <- lift (np_array low_res_img) ;;
  now <- time_time ;;
  timing_set "detection" (now - step_start)%Q ;;;
  emit (BarUpdate main_progress 10) ;;;
  ret (low_res_level, low_res_img).

(** Step 1, thresholding: the contours of the non-black area. *)
Definition find_contours (low_res_img : ndarray) : M (list contour) :=
  gray <- lift (cv2_cvtColor_RGB2GRAY low_res_img) ;;
  let '(_, thresh) := cv2_threshold gray 10 255 THRESH_BINARY in
  lift (cv2_findContours thresh RETR_EXTERNAL CHAIN_APPROX_SIMPLE).

(** Step 1, second half: the bounding box of the largest contour. *)
Definition largest_bounding_rect (contours : list contour) : M (Z * Z * Z * Z) :=
  largest_contour <- lift (py_max cv2_contourArea contours) ;;
  let bbox := cv2_boundingRect largest_contour in
  emit (BarUpdate main_progress 15) ;;;
  ret bbox.

(** [int(n * scale_factor)] *)
Definition scale (n : Z) (scale_factor : PyFloat.float) : outcome Z :=
  match PyFloat.int_mul n scale_factor with
  | Val f => PyFloat.to_int f
  | Exc e => Exc e
  end.

(** Step 2: scale the coordinates to level 0. *)
Definition scale_coordinates (slide : slide_handle) (low_res_level : Z)
    (bbox : Z * Z * Z * Z) : M (Z * Z * Z * Z) :=
  let '(x, y, w, h) := bbox in
  emit (BarSetDescription main_progress "Calculating coordinates") ;;;
  step_start <- time_time ;;
  scale_factor <- lift (py_getitem (level_downsamples slide) low_res_level) ;;
  x_high <- lift (scale x scale_factor) ;;
  y_high <- lift (scale y scale_factor) ;;
  w_high <- lift (scale w scale_factor) ;;
  h_high <- lift (scale h scale_factor) ;;
  now <- time_time ;;
  timing_set "coordinate_calc" (now - step_start)%Q ;;;
  emit (BarUpdate main_progress 15) ;;;
  ret (x_high, y_high, w_high, h_high).

(** The loop [for i in range(10)] of step 3; [img] is the variable the
    iteration [i == 5] assigns. *)
Fixpoint read_loop (slide : slide_handle) (region : Z * Z * Z * Z)
    (indices : list Z) (img : option pil_image) : M (option pil_image) :=
  match indices with
  | [] => ret img
  | i :: indices' =>
      let '(x_high, y_high, w_high, h_high) := region in
      time_sleep (2 # 10) ;;;
      emit (BarUpdate read_progress 10) ;;;
      img <- (if i =? 5
              then emit (ReadRegion (x_high, y_high) 0 (w_high, h_high)) ;;;
                   r <- lift (read_region slide (x_high, y_high) 0 (w_high, h_high)) ;;
                   ret (Some r)
              else ret img) ;;
      read_loop slide region indices' img
  end.

(** Step 3: read the region of interest at full resolution. *)
Definition read_full_res (slide : slide_handle) (region : Z * Z * Z * Z)
  : M (option pil_image) :=
  emit (BarSetDescription main_progress "Reading image data") ;;;
  step_start <- time_time ;;
  emit (BarNew read_progress 100 "Reading") ;;;
  img <- read_loop slide region (py_range 10) None ;;
  emit (BarClose read_progress) ;;;
  now <- time_time ;;
  timing_set "image_reading" (now - step_start)%Q ;;;
  emit (BarUpdate main_progress 30) ;;;
  ret img.

(** Step 4: convert to RGB. *)
Definition process_image (img : option pil_image) : M pil_image :=
  emit (BarSetDescription main_progress "Processing image") ;;;
  step_start <- time_time ;;
  img <- lift (match img with
               | Some im => pil_convert im "RGB"
               | None => Exc AttributeError_convert
               end) ;;
  now <- time_time ;;
  timing_set "processing" (now - step_start)%Q ;;;
  emit (BarUpdate main_progress 20) ;;;
  ret img.

(** Step 5: save as PNG. *)
Definition save_image (img : pil_image) (output_path : string) (quality : Z) : M unit :=
  emit (BarSetDescription main_progress "Saving image") ;;;
  step_start <- time_time ;;
  emit (ImageSave img output_path "png" quality true true) ;;;
  data <- lift (pil_save img output_path "png" quality true true) ;;
  file_write output_path data ;;;
  now <- time_time ;;
  timing_set "saving" (now - step_start)%Q ;;;
  emit (BarUpdate main_progress 10).

Definition success_message (w_high h_high : Z) : string :=
  "Successfully saved " ++ py_format_int w_high ++ "x" ++ py_format_int h_high
    ++ " cropped image (original size)".

(** The block under [with OpenSlide(input_path) as slide]. *)
Definition with_body (output_path : string) (quality : Z) (start_time : Q)
    (slide : slide_handle) : M result_triple :=
  emit (BarNew main_progress 100 "Overall Progress") ;;;
  low <- read_low_res slide ;;
  let '(low_res_level, low_res_img) := low in
  contours <- find_contours low_res_img ;;
  match contours with
  | [] =>
      emit (BarClose main_progress) ;;;
      t <- timing_get ;;
      ret (false, "Error: No object detected", t)
  | _ :: _ =>
      bbox <- largest_bounding_rect contours ;;
      region <- scale_coordinates slide low_res_level bbox ;;
      let '(x_high, y_high, w_high, h_high) := region in
      img <- read_full_res slide region ;;
      img <- process_image img ;;
      save_image img output_path quality ;;;
      emit (BarSetDescription main_progress "Conversion complete") ;;;
      emit (BarClose main_progress) ;;;
      now <- time_time ;;
      timing_set "total" (now - start_time)%Q ;;;
      t <- timing_get ;;
      ret (true, success_message w_high h_high, t)
  end.

(** The [except Exception as e] clause. *)
Definition handler (start_time : Q) (e : exn) : M result_triple :=
  now <- time_time ;;
  timing_set "total" (now - start_time)%Q ;;;
  t <- timing_get ;;
  ret (false, "Error: " ++ str e, t).

Definition safe_convert_mrxs_to_jpg_with_crop
    (input_path output_path : string) (quality : Z) : M result_triple :=
  start_time <- time_time ;;
  timing_bind timing_zero ;;;
  try_except (with_OpenSlide input_path (with_body output_path quality start_time))
             (handler start_time).

(** A run starts with an unread clock, no dictionary yet and an empty
    trace. *)
Definition initial (disk : gmap string file_data) : store := Store 0 ∅ disk [].

(** The triple a run returns and the state it leaves. *)
Definition run (input_path output_path : string) (quality : Z)
    (disk : gmap string file_data) : outcome result_triple * store :=
  safe_convert_mrxs_to_jpg_with_crop input_path output_path quality (initial disk).

End Converter.

(** ** Reading a run

    Vocabulary for the statements below: what a trace contains, and what the
    libraries answered on the way to a stage. *)
Section Observations.
Context {ext : Externals}.

(** The index of the lowest-resolution level, [slide.level_count - 1]. *)
Definition low_res_level_of (slide : slide_handle) : Z := level_count slide - 1.

Definition is_read (ev : event) : bool :=
  match ev with ReadRegion _ _ _ => true | _ => false end.

(** The [read_region] requests of a trace, in order. *)
Definition reads (tr : list event) : list event := List.filter is_read tr.

Definition is_checkpoint (ev : event) : bool :=
  match ev with BarUpdate read_progress _ => true | _ => false end.

(** The updates of the "Reading" bar, in order. *)
Definition checkpoints (tr : list event) : list event := List.filter is_checkpoint tr.

Definition is_pacing (ev : event) : bool :=
  match ev with
  | Sleep _ => true
  | BarUpdate read_progress _ => true
  | _ => false
  end.

(** The sleeps and the updates of the "Reading" bar, in order. *)
Definition pacing (tr : list event) : list event := List.filter is_pacing tr.

Definition is_timing_set (key : string) (ev : event) : bool :=
  match ev with TimingSet k _ => bool_decide (k = key) | _ => false end.

(** How often [timing_info[key]] was assigned. *)
Definition timing_writes (key : string) (tr : list event) : nat :=
  length (List.filter (is_timing_set key) tr).

(** Every save of the trace names the file [fp] and the format [format]. *)
Definition saves_as (fp format : string) (tr : list event) : Prop :=
  Forall (fun ev => match ev with
                    | ImageSave _ fp' format' _ _ _ => fp' = fp ∧ format' = format
                    | _ => True
                    end) tr.

(** The lowest-resolution level of [slide] reads as the array [a]: the
    calls of lines 45 and 46 succeed. *)
Definition low_res_array (slide : slide_handle) (dims : Z * Z) (a : ndarray) : Prop :=
  py_getitem (level_dimensions slide) (low_res_level_of slide) = Val dims ∧
  ∃ img rgb,
    read_region slide (0, 0) (low_res_level_of slide) dims = Val img ∧
    pil_convert img "RGB" = Val rgb ∧
    np_array rgb = Val a.

(** The foreground mask of an intensity plane: [cv2.threshold(gray, 10,
    255, cv2.THRESH_BINARY)[1]]. *)
Definition mask_of (gray : plane) : plane :=
  snd (cv2_threshold gray 10 255 THRESH_BINARY).

(** The array [a] has intensities [gray], in whose mask OpenCV finds the
    outer contours [cs]: the calls of lines 51 and 53 succeed. *)
Definition contours_of (a : ndarray) (gray : plane) (cs : list contour) : Prop :=
  cv2_cvtColor_RGB2GRAY a = Val gray ∧
  cv2_findContours (mask_of gray) RETR_EXTERNAL CHAIN_APPROX_SIMPLE = Val cs.

(** Opening [input_path] gives [slide], on whose lowest-resolution level
    the bounding box [bbox] is found. *)
Definition detects (input_path : string) (slide : slide_handle) (dims : Z * Z)
    (bbox : Z * Z * Z * Z) : Prop :=
  OpenSlide input_path = Val slide ∧
  ∃ a gray cs c,
    low_res_array slide dims a ∧ contours_of a gray cs ∧
    py_max cv2_contourArea cs = Val c ∧ cv2_boundingRect c = bbox.

(** Scaling [bbox] by the downsample factor [d] of the lowest-resolution
    level gives [region]: the calls of lines 65 to 69 succeed. *)
Definition scales_to (slide : slide_handle) (d : PyFloat.float)
    (bbox region : Z * Z * Z * Z) : Prop :=
  let '(x, y, w, h) := bbox in
  let '(x_high, y_high, w_high, h_high) := region in
  py_getitem (level_downsamples slide) (low_res_level_of slide) = Val d ∧
  scale x d = Val x_high ∧ scale y d = Val y_high ∧
  scale w d = Val w_high ∧ scale h d = Val h_high.

(** [floor(n * d)], where the product is a number. *)
Definition floor_scaled (n : Z) (d : PyFloat.float) : option Z :=
  match PyFloat.int_mul n d with
  | Val f => PyFloat.floor f
  | Exc _ => None
  end.

(** The pixel at row [r], column [c] of a plane. *)
Definition pixel (p : plane) (r c : nat) : option Z :=
  match p !! r with
  | Some row => row !! c
  | None => None
  end.

(** A plane of intensity zero throughout. *)
Definition is_black (gray : plane) : bool := forallb (forallb (Z.eqb 0)) gray.

(** The [try] block of a run, entered after the clock was read once and
    [timing_info] was bound: it returns a triple or raises. *)
Definition try_block (input_path output_path : string) (quality : Z)
    (disk : gmap string file_data) : outcome result_triple * store :=
  with_OpenSlide input_path (with_body output_path quality (clock 0))
                 (Store 1 timing_zero disk []).

(** The block returns the failure of line 56, "no object detected". *)
Definition no_region_detected (input_path output_path : string) (quality : Z)
    (disk : gmap string file_data) : Prop :=
  ∃ t s', try_block input_path output_path quality disk
          = (Val (false, "Error: No object detected", t), s').

(** One checkpoint of the staged read: a pause and an update by ten. *)
Definition checkpoint_pair : list event :=
  [Sleep (2 # 10); BarUpdate read_progress 10].

(** The six stage names. *)
Definition stage_keys : gset string :=
  {[ "total"; "detection"; "coordinate_calc"; "image_reading"; "processing"; "saving" ]}.

(** The PNG writer loses nothing: what it stores decodes to the picture
    of the image, in any common representation [pixels] of pictures. *)
Definition png_lossless {pixels : Type} (pixel_data : pil_image → pixels)
    (decode : file_data → option pixels) : Prop :=
  ∀ img fp q o p data,
    pil_save img fp "png" q o p = Val data → decode data = Some (pixel_data img).

(** The PNG writer ignores the keyword [quality]. *)
Definition png_ignores_quality : Prop :=
  ∀ img fp q q' o p, pil_save img fp "png" q o p = pil_save img fp "png" q' o p.

(** A clock that never runs backwards. *)
Definition monotone_clock : Prop := ∀ n m : nat, (n ≤ m)%nat → (clock n <= clock m)%Q.

End Observations.

(** ** A synthetic pyramid

    An instance of [Externals] small enough to run: a slide is given by its
    lowest-resolution intensity plane and its level tables; images are kept
    symbolically; the contour finder returns the bounding box of the lit
    pixels as the only contour.  It is used to run the function on concrete
    inputs, nothing else depends on it. *)
Module Synthetic.

Record slide : Type := Slide {
  s_plane : plane;
  s_dimensions : list (Z * Z);
  s_downsamples : list PyFloat.float;
  s_read_fails : bool
}.

Inductive image : Type :=
| LowRes (mode : string) (p : plane)
| Crop (mode : string) (x y w h : Z).

(** A stored file: the format, the picture, and what a lossy encoder
    dropped (nothing for PNG). *)
Record stored : Type := Stored { st_format : string; st_picture : image; st_loss : Z }.

Definition box : Type := Z * Z * Z * Z.

Definition set_mode (mode : string) (img : image) : image :=
  match img with
  | LowRes _ p => LowRes mode p
  | Crop _ x y w h => Crop mode x y w h
  end.

(** A [width] by [height] plane, black but for a rectangle of intensity [v]. *)
Definition rect_plane (width height : nat) (x y w h v : Z) : plane :=
  map (fun r =>
         map (fun c =>
                if (x <=? c) && (c <? x + w) && (y <=? r) && (r <? y + h)
                then v else 0)
             (py_range width))
      (py_range height).

(** The coordinates [(x, y)] of the pixels that are not zero. *)
Definition lit_in_row (y : Z) (row : list Z) : list (Z * Z) :=
  omap (fun '(x, p) => if p =? 0 then None else Some (x, y))
       (combine (py_range (length row)) row).

Definition lit_pixels (p : plane) : list (Z * Z) :=
  concat (map (fun '(y, row) => lit_in_row y row) (combine (py_range (length p)) p)).

Definition grow (b : Z * Z * Z * Z) (pt : Z * Z) : Z * Z * Z * Z :=
  let '(x1, y1, x2, y2) := b in
  let '(x, y) := pt in
  (Z.min x1 x, Z.min y1 y, Z.max x2 x, Z.max y2 y).

Definition boxes (p : plane) : list box :=
  match lit_pixels p with
  | [] => []
  | (x, y) :: rest =>
      let '(x1, y1, x2, y2) := fold_left grow rest (x, y, x, y) in
      [(x1, y1, x2 - x1 + 1, y2 - y1 + 1)]
  end.

Definition open_error : exn :=
  Exception "OpenSlideUnsupportedFormatError" "Unsupported or missing image file".
Definition read_error : exn := Exception "OpenSlideError" "Cannot read raw tile".

Definition the_path : string := "Mrxs_files/Ex.mrxs".

Definition env (s : slide) : Externals := {|
  slide_handle := slide;
  pil_image := image;
  ndarray := plane;
  contour := box;
  file_data := stored;
  clock := fun n => inject_Z (Z.of_nat n);
  OpenSlide := fun path => if bool_decide (path = the_path) then Val s else Exc open_error;
  level_count := fun sl => Z.of_nat (length (s_dimensions sl));
  level_dimensions := s_dimensions;
  level_downsamples := s_downsamples;
  read_region := fun sl '(x, y) level '(w, h) =>
    if level =? Z.of_nat (length (s_dimensions sl)) - 1
    then Val (LowRes "RGBA" (s_plane sl))
    else if s_read_fails sl then Exc read_error
    else Val (Crop "RGBA" x y w h);
  pil_convert := fun img mode => Val (set_mode mode img);
  pil_save := fun img fp format quality optimize progressive =>
    Val (Stored format img (if bool_decide (format = "png") then 0 else 100 - quality));
  np_array := fun img => Val (match img with LowRes _ p => p | Crop _ _ _ _ _ => [] end);
  cv2_cvtColor_RGB2GRAY := fun a => Val a;
  cv2_findContours := fun p _ _ => Val (boxes p);
  cv2_contourArea := fun '(_, _, w, h) => inject_Z (w * h);
  cv2_boundingRect := fun b => b
|}.

(** What a stored file decodes to: the picture, unless the encoder was
    lossy. *)
Definition decode (f : stored) : option image :=
  if st_loss f =? 0 then Some (st_picture f) else None.

Definition tables : list (Z * Z) * list PyFloat.float :=
  ([(1024, 768); (256, 192); (64, 48)], [PyFloat.one; PyFloat.lit_4; PyFloat.lit_16]).

(** Three levels with downsamples 1, 4 and 16; the lowest-resolution level
    shows a bright rectangle at (10, 10) of size 50 by 30. *)
Definition specimen : slide :=
  Slide (rect_plane 64 48 10 10 50 30 200) (fst tables) (snd tables) false.

(** The same pyramid, entirely black. *)
Definition blank : slide :=
  Slide (rect_plane 64 48 0 0 0 0 0) (fst tables) (snd tables) false.

(** The specimen on a medium whose full-resolution read fails. *)
Definition damaged : slide :=
  Slide (rect_plane 64 48 10 10 50 30 200) (fst tables) (snd tables) true.

Definition specimen_env : Externals := env specimen.
Definition blank_env : Externals := env blank.
Definition damaged_env : Externals := env damaged.

End Synthetic.

(** ** Further vocabulary for traces and dictionaries *)
Section Accounting.
Context {ext : Externals}.





Definition is_save (ev : event) : bool :=
  match ev with ImageSave _ _ _ _ _ _ => true | _ => false end.

(** The saves of a trace, in order. *)
Definition saves (tr : list event) : list event := List.filter is_save tr.




(** [t[key]], or 0 where the key is missing. *)
Definition value (t : gmap string Q) (key : string) : Q := default 0%Q (t !! key).




End Accounting.

(** ** The script: the block under [if __name__ == "__main__"]

    The prints of the script are kept in a list beside the store, so that
    what was printed before an exception is not lost. *)
Section Script.
Context {ext : Externals}.















End Script.

(** The libraries [E] with the clock run backwards: every reading of
    [time.time()] is the negative of the one [E] gives. *)
Definition rewound (E : Externals) : Externals := {|
  slide_handle := @slide_handle E;
  pil_image := @pil_image E;
  ndarray := @ndarray E;
  contour := @contour E;
  file_data := @file_data E;
  clock := fun n => (- @clock E n)%Q;
  OpenSlide := @OpenSlide E;
  level_count := @level_count E;
  level_dimensions := @level_dimensions E;
  level_downsamples := @level_downsamples E;
  read_region := @read_region E;
  pil_convert := @pil_convert E;
  pil_save := @pil_save E;
  np_array := @np_array E;
  cv2_cvtColor_RGB2GRAY := @cv2_cvtColor_RGB2GRAY E;
  cv2_findContours := @cv2_findContours E;
  cv2_contourArea := @cv2_contourArea E;
  cv2_boundingRect := @cv2_boundingRect E
|}.

(** A synthetic pyramid whose last downsample factor is an infinity. *)
Module Unscaled.
Import Synthetic.

Definition slide : Synthetic.slide :=
  Slide (rect_plane 64 48 10 10 50 30 200) (fst tables)
        [PyFloat.one; PyFloat.lit_4; S754_infinity false] false.

Definition env : Externals := Synthetic.env slide.

End Unscaled.

(** * Properties *)

(** ** Floats: sign, truncation and floor *)
Module PyFloatFacts.
Import PyFloat.

Lemma round_aux_keeps_sign (sx : bool) (mx ex : Z) (lx : location) :
  sign (binary_round_aux prec emax sx mx ex lx) ≠ Some (negb sx).
Proof.
  unfold binary_round_aux.
  destruct (shr_fexp prec emax mx ex lx) as [mrs' e'].
  destruct (shr_fexp prec emax _ e' loc_Exact) as [mrs'' e''].
  destruct (shr_m mrs''); [| destruct (e'' <=? emax - prec) |];
    cbn; destruct sx; discriminate.
Qed.

Lemma round_aux_not_negative (mx ex : Z) (lx : location) :
  is_negative (binary_round_aux prec emax false mx ex lx) = false.
Proof.
  unfold is_negative.
  pose proof (round_aux_keeps_sign false mx ex lx) as Hs.
  destruct (sign _) as [[|]|]; [contradiction Hs | |]; reflexivity.
Qed.

Lemma mul_not_negative (a b : float) :
  is_negative a = false → is_negative b = false → is_negative (mul a b) = false.
Proof.
  destruct a as [[|]|[|]| |[|] ma ea], b as [[|]|[|]| |[|] mb eb];
    cbn; try discriminate; try reflexivity.
  intros _ _. apply round_aux_not_negative.
Qed.

Lemma of_int_not_negative (n : Z) (f : float) :
  0 ≤ n → of_int n = Val f → is_negative f = false.
Proof.
  intros Hn. unfold of_int, binary_normalize.
  destruct n as [|m|m]; [| | lia].
  - intros [= <-]. reflexivity.
  - unfold binary_round.
    destruct (shl_align m 0 _) as [mz ez].
    pose proof (round_aux_not_negative (Z.pos mz) ez loc_Exact) as Hs.
    destruct (binary_round_aux _ _ _ _ _ _); intros [= <-]; exact Hs.
Qed.

Lemma ge_one_not_negative (d : float) : ge_one d = true → is_negative d = false.
Proof.
  intros Hd.
  destruct d as [[|]|[|]| |[|] m e]; try reflexivity; vm_compute in Hd; discriminate Hd.
Qed.

(** On a float that is not negative, [int] and [floor] agree. *)
Lemma to_int_floor (f : float) (z : Z) :
  is_negative f = false → floor f = Some z → to_int f = Val z.
Proof.
  destruct f as [s|s| |s m e]; cbn; try discriminate.
  - intros _ [= <-]. reflexivity.
  - destruct s; [discriminate |]. intros _ [= <-]. f_equal.
    destruct (Z.leb_spec 0 e); [reflexivity |].
    cbn [cond_Zopp]. apply Z.quot_div_nonneg; [lia |].
    apply Z.pow_pos_nonneg; lia.
Qed.

End PyFloatFacts.

(** ** Running the function symbolically *)

(** Unfold the function and the statements of the monad, and nothing of the
    libraries, the dictionary or the arithmetic. *)
Ltac exec :=
  cbv beta iota zeta delta
    [run initial try_block safe_convert_mrxs_to_jpg_with_crop try_except with_OpenSlide with_body
     read_low_res find_contours largest_bounding_rect scale_coordinates read_full_res
     read_loop process_image save_image handler py_range low_res_level_of
     bind ret lift emit time_time time_sleep timing_bind timing_set timing_get file_write
     time_calls timing_info files trace app
     map seq Z.of_nat Pos.of_succ_nat Pos.succ Z.eqb Pos.eqb];
  repeat match goal with
    | |- context [cv2_threshold ?g ?t ?m ?ty] =>
        change (cv2_threshold g t m ty) with (t, mask_of g)
    end;
  cbv beta iota.

(** A library call whose outcome is a hypothesis. *)
Ltac known_call :=
  match goal with
  | H : cv2_boundingRect ?c = _ |- context [cv2_boundingRect ?c] => rewrite H
  | H : ?c = Val _ |- context [?c] => rewrite H
  | H : ?c = Exc _ |- context [?c] => rewrite H
  end.

(** A library call whose outcome is open: both outcomes are followed. *)
Ltac open_call :=
  match goal with
  | |- context [match ?l with [] => _ | _ :: _ => _ end] => is_var l; destruct l
  | |- context [let '(_, _) := ?p in _] => is_var p; destruct p
  | |- context [let '(_, _) := cv2_boundingRect ?c in _] =>
      let E := fresh "E" in destruct (cv2_boundingRect c) as [[[? ?] ?] ?] eqn:E
  | |- context [match ?o with Val _ => _ | Exc _ => _ end] =>
      lazymatch o with
      | OpenSlide _ => idtac
      | py_getitem _ _ => idtac
      | read_region _ _ _ _ => idtac
      | pil_convert _ _ => idtac
      | np_array _ => idtac
      | cv2_cvtColor_RGB2GRAY _ => idtac
      | cv2_findContours _ _ _ => idtac
      | py_max _ _ => idtac
      | scale _ _ => idtac
      | pil_save _ _ _ _ _ _ => idtac
      end;
      let E := fresh "E" in destruct o eqn:E
  end.

Ltac follow := exec; repeat (known_call; exec).
Ltac all_paths := exec; repeat (first [known_call | open_call]; exec).

(** ** [max] and [cv2.threshold] *)

Lemma Qgtb_false (a b : Q) : Qgtb a b = false ↔ (a <= b)%Q.
Proof.
  unfold Qgtb. rewrite negb_false_iff. apply Qle_bool_iff.
Qed.

Lemma Qgtb_true (a b : Q) : Qgtb a b = true ↔ (b < a)%Q.
Proof.
  unfold Qgtb. rewrite negb_true_iff, <- not_true_iff_false, Qle_bool_iff.
  split; [apply Qnot_le_lt | apply Qlt_not_le].
Qed.

Section Max.
Context {A : Type} (key : A → Q).

(** The running maximum is the start or an item, and its key bounds the
    start's and every item's. *)
Lemma fold_max_spec (l : list A) (x : A) :
  let m := fold_left (py_max_step key) l x in
  (m = x ∨ m ∈ l) ∧ (key x <= key m)%Q ∧ ∀ y, y ∈ l → (key y <= key m)%Q.
Proof.
  revert x. induction l as [|a l IH]; intros x; cbn.
  - split; [left; reflexivity |]. split; [apply Qle_refl |].
    intros y Hy. inversion Hy.
  - destruct (IH (py_max_step key x a)) as (Hin & Hle & Hall).
    assert (Hstep : (key x <= key (py_max_step key x a))%Q
                    ∧ (key a <= key (py_max_step key x a))%Q
                    ∧ (py_max_step key x a = x ∨ py_max_step key x a = a)).
    { unfold py_max_step. destruct (Qgtb (key a) (key x)) eqn:Hc.
      - apply Qgtb_true in Hc. split; [apply Qlt_le_weak, Hc |].
        split; [apply Qle_refl | right; reflexivity].
      - apply Qgtb_false in Hc. split; [apply Qle_refl |].
        split; [exact Hc | left; reflexivity]. }
    destruct Hstep as (Hx & Ha & Hsel).
    split; [| split].
    + destruct Hin as [-> | Hin]; [| right; right; exact Hin].
      destruct Hsel as [-> | ->]; [left; reflexivity | right; left].
    + eapply Qle_trans; eassumption.
    + intros y Hy. apply elem_of_cons in Hy as [-> | Hy].
      * eapply Qle_trans; eassumption.
      * apply Hall, Hy.
Qed.

(** [max(l, key=key)] returns an element of [l] of largest key, and raises
    on the empty list only. *)
Lemma py_max_spec (l : list A) :
  match py_max key l with
  | Val m => m ∈ l ∧ ∀ y, y ∈ l → (key y <= key m)%Q
  | Exc _ => l = []
  end.
Proof.
  destruct l as [|x l]; cbn; [reflexivity |].
  destruct (fold_max_spec l x) as (Hin & Hle & Hall).
  split.
  - destruct Hin as [-> | Hin]; [left | right; exact Hin].
  - intros y Hy. apply elem_of_cons in Hy as [-> | Hy]; [exact Hle | apply Hall, Hy].
Qed.

End Max.

Lemma lookup_map {A B : Type} (f : A → B) (l : list A) (i : nat) :
  map f l !! i = option_map f (l !! i).
Proof.
  revert i. induction l as [|a l IH]; intros [|i]; cbn; try reflexivity. apply IH.
Qed.

(** The mask has the shape of the plane; a pixel is 255 where the intensity
    exceeds 10 and 0 elsewhere. *)
Lemma mask_pixel (gray : plane) (r c : nat) :
  pixel (mask_of gray) r c =
  match pixel gray r c with
  | Some p => Some (if p >? 10 then 255 else 0)
  | None => None
  end.
Proof.
  unfold pixel, mask_of, cv2_threshold. cbn [snd].
  rewrite lookup_map.
  destruct (gray !! r) as [row|]; cbn [option_map]; [| reflexivity].
  rewrite lookup_map.
  destruct (row !! c); reflexivity.
Qed.

Lemma mask_is_black (gray : plane) : is_black gray = true → is_black (mask_of gray) = true.
Proof.
  unfold is_black, mask_of, cv2_threshold. cbn [snd].
  rewrite !forallb_forall. intros Hg row' Hrow'.
  apply in_map_iff in Hrow' as (row & <- & Hrow).
  specialize (Hg row Hrow). rewrite forallb_forall in Hg |- *.
  intros p' Hp'. apply in_map_iff in Hp' as (p & <- & Hp).
  specialize (Hg p Hp). apply Z.eqb_eq in Hg as <-. reflexivity.
Qed.

(** ** The coordinate mapping *)
Section Mapping.
Context {ext : Externals}.

(** Where [floor(n * d)] exists and neither factor is negative,
    [int(n * d)] is that floor. *)
Lemma scale_floor (n : Z) (d : PyFloat.float) (z : Z) :
  0 ≤ n → PyFloat.is_negative d = false →
  floor_scaled n d = Some z → scale n d = Val z.
Proof.
  unfold floor_scaled, scale, PyFloat.int_mul. intros Hn Hd.
  destruct (PyFloat.of_int n) as [f|e] eqn:Hf; [| discriminate].
  apply PyFloatFacts.to_int_floor, PyFloatFacts.mul_not_negative; [| exact Hd].
  eapply PyFloatFacts.of_int_not_negative; eassumption.
Qed.

(** C1. A bounding box [(x, y, w, h)] found at the lowest-resolution level,
    whose downsample factor is [d >= 1], is mapped to level 0 by
    [int(x * d)], [int(y * d)], [int(w * d)], [int(h * d)], which are the
    floors of the products; and the run then asks [read_region] for exactly
    the region of size [(floor(w*d), floor(h*d))] at
    [(floor(x*d), floor(y*d))] on level 0: the only requests of the run are
    the one of the detection and this one. *)
Theorem scaled_region_is_requested
    (input_path output_path : string) (quality : Z) (disk : gmap string file_data)
    (slide : slide_handle) (dims : Z * Z) (x y w h : Z) (d : PyFloat.float)
    (fx fy fw fh : Z) :
  detects input_path slide dims (x, y, w, h) →
  0 ≤ x → 0 ≤ y → 0 ≤ w → 0 ≤ h →
  py_getitem (level_downsamples slide) (low_res_level_of slide) = Val d →
  PyFloat.ge_one d = true →
  floor_scaled x d = Some fx → floor_scaled y d = Some fy →
  floor_scaled w d = Some fw → floor_scaled h d = Some fh →
  scales_to slide d (x, y, w, h) (fx, fy, fw, fh) ∧
  reads (trace (run input_path output_path quality disk).2) =
    [ReadRegion (0, 0) (low_res_level_of slide) dims; ReadRegion (fx, fy) 0 (fw, fh)].
Proof.
  intros (Hopen & a & gray & cs & c & (Hdims & img & rgb & Hread & Hconv & Harr)
          & (Hgray & Hfind) & Hmax & Hbox) Hx Hy Hw Hh Hd Hge Hfx Hfy Hfw Hfh.
  apply PyFloatFacts.ge_one_not_negative in Hge.
  apply scale_floor in Hfx, Hfy, Hfw, Hfh; try assumption.
  split; [cbn; auto |].
  unfold low_res_level_of in *.
  destruct cs as [|c0 cs]; [discriminate Hmax |].
  all_paths; reflexivity.
Qed.

End Mapping.

(** ** Detection *)
Section Detection.
Context {ext : Externals}.

(** A run is its [try] block followed, if the block raised, by the
    [except] clause. *)
Lemma run_try_block (input_path output_path : string) (quality : Z)
    (disk : gmap string file_data) :
  run input_path output_path quality disk =
  match try_block input_path output_path quality disk with
  | (Val r, s') => (Val r, s')
  | (Exc e, s') => handler (clock 0) e s'
  end.
Proof. reflexivity. Qed.

(** C2. Detection works on the lowest-resolution level
    [level_count - 1]: the first request of a run is the full plane of that
    level.  The plane is turned into intensities, and the mask handed to
    [cv2.findContours], with [RETR_EXTERNAL], is 255 exactly where the
    intensity exceeds 10.  Of the contours found, one of largest area is
    selected and its bounding rectangle is the result.  The block returns
    the failure "no object detected" if and only if no contour was found. *)
Theorem roi_detection
    (input_path output_path : string) (quality : Z) (disk : gmap string file_data)
    (slide : slide_handle) (dims : Z * Z) (a : ndarray) (gray : list (list Z))
    (cs : list contour) :
  OpenSlide input_path = Val slide →
  low_res_array slide dims a →
  contours_of a gray cs →
  let r := run input_path output_path quality disk in
  py_getitem (level_dimensions slide) (level_count slide - 1) = Val dims ∧
  head (reads (trace r.2)) = Some (ReadRegion (0, 0) (level_count slide - 1) dims) ∧
  (∀ s, find_contours a s
        = (cv2_findContours (mask_of gray) RETR_EXTERNAL CHAIN_APPROX_SIMPLE, s)) ∧
  (∀ i j, pixel (mask_of gray) i j =
          match pixel gray i j with
          | Some p => Some (if p >? 10 then 255 else 0)
          | None => None
          end) ∧
  (cs ≠ [] →
   ∃ c, c ∈ cs ∧ (∀ c', c' ∈ cs → (cv2_contourArea c' <= cv2_contourArea c)%Q) ∧
        ∀ s, (largest_bounding_rect cs s).1 = Val (cv2_boundingRect c)) ∧
  (no_region_detected input_path output_path quality disk ↔ cs = []) ∧
  (cs = [] → ∃ t, r.1 = Val (false, "Error: No object detected", t)).
Proof.
  intros Hopen (Hdims & img & rgb & Hread & Hconv & Harr) (Hgray & Hfind) r.
  unfold low_res_level_of in *.
  split; [exact Hdims |].
  split; [subst r; destruct cs; all_paths; reflexivity |].
  split; [intros s; unfold find_contours; exec; rewrite Hgray; reflexivity |].
  split; [intros i j; apply mask_pixel |].
  split.
  { intros Hne. pose proof (py_max_spec cv2_contourArea cs) as Hmax.
    destruct (py_max cv2_contourArea cs) as [c|e] eqn:Hc; [| contradiction].
    exists c. destruct Hmax as [Hin Hall]. split; [exact Hin |].
    split; [exact Hall |].
    intros s. unfold largest_bounding_rect. exec. rewrite Hc. reflexivity. }
  split.
  { unfold no_region_detected. split.
    - intros (t & s' & Hblock). revert Hblock.
      destruct cs as [|c0 cs]; [reflexivity |].
      all_paths; discriminate.
    - intros ->. follow. eauto. }
  intros ->. subst r. follow. eauto.
Qed.

(** C3, as the code has it.  On a slide whose lowest-resolution level is
    black throughout, the mask is black, and when OpenCV finds no contour in
    it the run returns [(False, "Error: No object detected", timing_info)]
    by line 56, which leaves [timing_info['total']] at its initial 0: the
    key is never assigned on this path. *)
Theorem black_slide_leaves_total_zero
    (input_path output_path : string) (quality : Z) (disk : gmap string file_data)
    (slide : slide_handle) (dims : Z * Z) (a : ndarray) (gray : list (list Z)) :
  OpenSlide input_path = Val slide →
  low_res_array slide dims a →
  cv2_cvtColor_RGB2GRAY a = Val gray →
  is_black gray = true →
  cv2_findContours (mask_of gray) RETR_EXTERNAL CHAIN_APPROX_SIMPLE = Val [] →
  let r := run input_path output_path quality disk in
  is_black (mask_of gray) = true ∧
  ∃ t, r.1 = Val (false, "Error: No object detected", t) ∧
       t !! "total" = Some 0%Q ∧ ¬ (0 < 0)%Q ∧
       timing_writes "total" (trace r.2) = 0%nat.
Proof.
  intros Hopen (Hdims & img & rgb & Hread & Hconv & Harr) Hgray Hblack Hfind r.
  unfold low_res_level_of in *.
  split; [apply mask_is_black, Hblack |].
  subst r. follow. eexists. split; [reflexivity |].
  split; [| split; [apply Qlt_irrefl | reflexivity]].
  rewrite lookup_insert_ne by discriminate. reflexivity.
Qed.

End Detection.

(** ** Failures *)
Section Failures.
Context {ext : Externals}.

(** C4. When the full-resolution [read_region] raises [e], the run returns
    [(False, "Error: " + str(e), timing_info)]; [timing_info['detection']]
    and [timing_info['coordinate_calc']] hold the durations measured for
    the two stages that completed, each assigned once, and
    [timing_info['image_reading']] was not assigned and is still 0. *)
Theorem full_read_failure
    (input_path output_path : string) (quality : Z) (disk : gmap string file_data)
    (slide : slide_handle) (dims : Z * Z) (bbox : Z * Z * Z * Z) (d : PyFloat.float)
    (x_high y_high w_high h_high : Z) (e : exn) :
  detects input_path slide dims bbox →
  scales_to slide d bbox (x_high, y_high, w_high, h_high) →
  read_region slide (x_high, y_high) 0 (w_high, h_high) = Exc e →
  let r := run input_path output_path quality disk in
  ∃ t, r.1 = Val (false, "Error: " ++ str e, t) ∧
       t !! "detection" = Some (clock 2 - clock 1)%Q ∧
       t !! "coordinate_calc" = Some (clock 4 - clock 3)%Q ∧
       t !! "image_reading" = Some 0%Q ∧
       timing_writes "detection" (trace r.2) = 1%nat ∧
       timing_writes "coordinate_calc" (trace r.2) = 1%nat ∧
       timing_writes "image_reading" (trace r.2) = 0%nat.
Proof.
  intros (Hopen & a & gray & cs & c & (Hdims & img & rgb & Hread & Hconv & Harr)
          & (Hgray & Hfind) & Hmax & Hbox).
  destruct bbox as [[[x y] w] h].
  intros (Hd & Hx & Hy & Hw & Hh) Hfail r.
  unfold low_res_level_of in *.
  destruct cs as [|c0 cs]; [discriminate Hmax |].
  subst r. follow. eexists. split; [reflexivity |].
  repeat split; reflexivity.
Qed.

(** C5. A run always returns a triple, never an exception.  Whatever the
    [try] block raises is turned into [(False, "Error: " + str(e),
    timing_info)].  In particular this is what happens to an error of
    opening the slide, of the detection read, of the full-resolution read,
    of the conversion to RGB and of the save. *)
Theorem errors_do_not_escape
    (input_path output_path : string) (quality : Z) (disk : gmap string file_data) :
  let r := run input_path output_path quality disk in
  let failed_with e := ∃ t, r.1 = Val (false, "Error: " ++ str e, t) in
  (∃ ok msg t, r.1 = Val (ok, msg, t)) ∧
  (∀ e, (try_block input_path output_path quality disk).1 = Exc e → failed_with e) ∧
  (∀ e, OpenSlide input_path = Exc e → failed_with e) ∧
  (∀ slide dims e,
      OpenSlide input_path = Val slide →
      py_getitem (level_dimensions slide) (low_res_level_of slide) = Val dims →
      read_region slide (0, 0) (low_res_level_of slide) dims = Exc e →
      failed_with e) ∧
  (∀ slide dims bbox d x_high y_high w_high h_high,
      detects input_path slide dims bbox →
      scales_to slide d bbox (x_high, y_high, w_high, h_high) →
      (∀ e, read_region slide (x_high, y_high) 0 (w_high, h_high) = Exc e →
            failed_with e) ∧
      (∀ img e,
          read_region slide (x_high, y_high) 0 (w_high, h_high) = Val img →
          pil_convert img "RGB" = Exc e → failed_with e) ∧
      (∀ img rgb e,
          read_region slide (x_high, y_high) 0 (w_high, h_high) = Val img →
          pil_convert img "RGB" = Val rgb →
          pil_save rgb output_path "png" quality true true = Exc e →
          failed_with e)).
Proof.
  intros r failed_with.
  assert (Hblock : ∀ e, (try_block input_path output_path quality disk).1 = Exc e →
                        failed_with e).
  { intros e He. subst failed_with r. cbv beta. rewrite run_try_block.
    destruct (try_block _ _ _ _) as [[v|e'] s']; cbn in He; [discriminate |].
    injection He as ->. eexists. reflexivity. }
  split.
  { subst r. rewrite run_try_block.
    destruct (try_block _ _ _ _) as [[[[ok msg] t]|e'] s'].
    - exists ok, msg, t. reflexivity.
    - do 3 eexists. reflexivity. }
  split; [exact Hblock |].
  split; [intros e He; apply Hblock; follow; reflexivity |].
  split.
  { intros slide dims e Hopen Hdims Hread. unfold low_res_level_of in *.
    apply Hblock. follow. reflexivity. }
  intros slide dims bbox d x_high y_high w_high h_high
    (Hopen & a & gray & cs & c & (Hdims & img0 & rgb0 & Hread & Hconv & Harr)
     & (Hgray & Hfind) & Hmax & Hbox).
  destruct bbox as [[[x y] w] h].
  intros (Hd & Hx & Hy & Hw & Hh).
  unfold low_res_level_of in *.
  destruct cs as [|c0 cs]; [discriminate Hmax |].
  split; [| split].
  - intros e He. apply Hblock. follow. reflexivity.
  - intros img e Himg He. apply Hblock. follow. reflexivity.
  - intros img rgb e Himg Hrgb He. apply Hblock. follow. reflexivity.
Qed.

(** A run in which every library call succeeds: the two requests, the
    file written and the triple returned. *)
Lemma successful_run
    (input_path output_path : string) (quality : Z) (disk : gmap string file_data)
    (slide : slide_handle) (dims : Z * Z) (bbox : Z * Z * Z * Z) (d : PyFloat.float)
    (x_high y_high w_high h_high : Z) (img rgb : pil_image) (data : file_data) :
  detects input_path slide dims bbox →
  scales_to slide d bbox (x_high, y_high, w_high, h_high) →
  read_region slide (x_high, y_high) 0 (w_high, h_high) = Val img →
  pil_convert img "RGB" = Val rgb →
  pil_save rgb output_path "png" quality true true = Val data →
  let r := run input_path output_path quality disk in
  reads (trace r.2) = [ReadRegion (0, 0) (low_res_level_of slide) dims;
                       ReadRegion (x_high, y_high) 0 (w_high, h_high)] ∧
  files r.2 = <[output_path := data]> disk ∧
  ∃ t, r.1 = Val (true, success_message w_high h_high, t).
Proof.
  intros (Hopen & a & gray & cs & c & (Hdims & img0 & rgb0 & Hread & Hconv & Harr)
          & (Hgray & Hfind) & Hmax & Hbox).
  destruct bbox as [[[x y] w] h].
  intros (Hd & Hx & Hy & Hw & Hh) Himg Hrgb Hsave r.
  unfold low_res_level_of in *.
  destruct cs as [|c0 cs]; [discriminate Hmax |].
  subst r. follow.
  split; [reflexivity |]. split; [reflexivity |]. eexists. reflexivity.
Qed.

(** C6. Three levels with downsamples 1.0, 4.0 and 16.0, and the bounding
    box (10, 10, 50, 30) on the last one: the region computed for level 0
    is (160, 160, 800, 480), that region is what the run requests, and when
    the read, the conversion and the save succeed the run returns success
    with a message that reports 800x480. *)
Theorem end_to_end_scenario
    (input_path output_path : string) (quality : Z) (disk : gmap string file_data)
    (slide : slide_handle) (dims : Z * Z) (img rgb : pil_image) (data : file_data) :
  level_count slide = 3 →
  level_downsamples slide = [PyFloat.one; PyFloat.lit_4; PyFloat.lit_16] →
  detects input_path slide dims (10, 10, 50, 30) →
  read_region slide (160, 160) 0 (800, 480) = Val img →
  pil_convert img "RGB" = Val rgb →
  pil_save rgb output_path "png" quality true true = Val data →
  let r := run input_path output_path quality disk in
  scales_to slide PyFloat.lit_16 (10, 10, 50, 30) (160, 160, 800, 480) ∧
  reads (trace r.2) = [ReadRegion (0, 0) 2 dims; ReadRegion (160, 160) 0 (800, 480)] ∧
  ∃ t, r.1 = Val (true, "Successfully saved 800x480 cropped image (original size)", t).
Proof.
  intros Hcount Hdown Hdet Himg Hrgb Hsave r.
  assert (Hscale : scales_to slide PyFloat.lit_16 (10, 10, 50, 30) (160, 160, 800, 480)).
  { unfold scales_to, low_res_level_of. rewrite Hcount, Hdown.
    repeat split; vm_compute; reflexivity. }
  split; [exact Hscale |].
  destruct (successful_run input_path output_path quality disk slide dims _ _ _ _ _ _
              img rgb data Hdet Hscale Himg Hrgb Hsave) as (Hreads & _ & t & Hret).
  unfold low_res_level_of in Hreads. rewrite Hcount in Hreads.
  split; [exact Hreads |]. exists t. exact Hret.
Qed.

End Failures.

(** ** The staged read *)
Section Staging.
Context {ext : Externals}.

(** C8. The staged read issues one [read_region] request, for the region
    it was given, on level 0.  Six checkpoints (a pause of 0.2 s and an
    update of the "Reading" bar by 10) precede the request whatever
    happens.  When the read returns, four more follow it, which makes ten
    updates of 10 in a row, the last ones after the read has returned, and
    the image read is passed on; when the read raises, nothing follows the
    request.  The checkpoints decide neither whether nor with which
    arguments the read is made. *)
Theorem staged_read (slide : slide_handle) (x y w h : Z) (s : store) :
  let r := read_full_res slide (x, y, w, h) s in
  let request := ReadRegion (x, y) 0 (w, h) in
  ∃ before after,
    trace r.2 = (trace s ++ before ++ request :: after)%list ∧
    reads (before ++ request :: after)%list = [request] ∧
    pacing before = concat (replicate 6 checkpoint_pair) ∧
    match read_region slide (x, y) 0 (w, h) with
    | Val img =>
        r.1 = Val (Some img) ∧
        pacing after = concat (replicate 4 checkpoint_pair) ∧
        checkpoints (before ++ after)%list = replicate 10 (BarUpdate read_progress 10)
    | Exc e => r.1 = Exc e ∧ after = []
    end.
Proof.
  destruct s as [n t f tr]. intros r request. subst r.
  unfold read_full_res.
  cbv beta iota zeta delta
    [read_loop py_range bind ret lift emit time_time time_sleep timing_set
     time_calls timing_info files trace
     map seq Z.of_nat Pos.of_succ_nat Pos.succ Z.eqb Pos.eqb].
  destruct (read_region slide (x, y) 0 (w, h)) as [img|e];
    cbv beta iota; cbn [fst snd trace];
    repeat rewrite <- app_assoc; cbn [app].
  - eexists [_; _; _; _; _; _; _; _; _; _; _; _; _; _], _.
    split; [reflexivity |]. repeat split; reflexivity.
  - eexists [_; _; _; _; _; _; _; _; _; _; _; _; _; _], [].
    split; [reflexivity |]. repeat split; reflexivity.
Qed.

End Staging.

(** ** The timing dictionary *)
Section Timing.
Context {ext : Externals}.

Lemma elapsed_nonneg (n m : nat) :
  monotone_clock → (n ≤ m)%nat → (0 <= clock m - clock n)%Q.
Proof.
  intros Hmono Hnm. specialize (Hmono n m Hnm). lra.
Qed.

Lemma timing_zero_nonneg : map_Forall (fun _ v => (0 <= v)%Q) timing_zero.
Proof.
  unfold timing_zero.
  repeat (apply map_Forall_insert_2; [apply Qle_refl |]).
  apply map_Forall_empty.
Qed.

Lemma dom_timing_zero : dom timing_zero = stage_keys.
Proof. reflexivity. Qed.

(** An assignment to one of the six keys leaves the key set as it is. *)
Lemma dom_insert_stage (k : string) (v : Q) (t : gmap string Q) :
  k ∈ stage_keys → dom t = stage_keys → dom (<[k := v]> t) = stage_keys.
Proof.
  intros Hk Ht. rewrite dom_insert_L, Ht.
  apply subseteq_union_1_L, singleton_subseteq_l, Hk.
Qed.

Ltac stage_key :=
  unfold stage_keys; rewrite !elem_of_union, !elem_of_singleton; auto 10.

Ltac timing_goal :=
  do 3 eexists; split; [reflexivity |]; split; [reflexivity |];
  split;
  [ repeat first [ apply dom_timing_zero | apply dom_insert_stage; [stage_key |] ]
  | split;
    [ intros k; cbv [timing_writes List.filter is_timing_set length];
      repeat case_bool_decide; subst; try discriminate; lia
    | split;
      [ intros k Hk Hw; unfold stage_keys in Hk;
        repeat (apply elem_of_union in Hk as [Hk | Hk]);
        apply elem_of_singleton in Hk; subst k;
        first [ discriminate Hw | reflexivity ]
      | intros Hmono;
        repeat first
          [ apply timing_zero_nonneg
          | apply map_Forall_insert_2;
            [apply (elapsed_nonneg _ _ Hmono); lia |] ] ] ] ].

(** C9, as the code has it.  Whatever happens, and whatever the clock
    does, the dictionary returned has exactly the six stage keys, no key is
    assigned more than once in a run, and a key that was not assigned still
    holds 0.  The values are differences of two readings of [time.time()]:
    they are non-negative when the clock does not run backwards. *)
Theorem timing_is_well_formed
    (input_path output_path : string) (quality : Z) (disk : gmap string file_data) :
  let r := run input_path output_path quality disk in
  ∃ ok msg t,
    r.1 = Val (ok, msg, t) ∧
    t = timing_info r.2 ∧
    dom t = stage_keys ∧
    (∀ k, (timing_writes k (trace r.2) ≤ 1)%nat) ∧
    (∀ k, k ∈ stage_keys → timing_writes k (trace r.2) = 0%nat → t !! k = Some 0%Q) ∧
    (monotone_clock → map_Forall (fun _ v => (0 <= v)%Q) t).
Proof.
  intros r.
  destruct (run input_path output_path quality disk) as [o s'] eqn:Hrun.
  subst r. cbn [fst snd]. revert Hrun.
  all_paths; intros [= <- <-]; cbn [timing_info trace].
  all: timing_goal.
Qed.

End Timing.

(** ** The output file *)
Section Output.
Context {ext : Externals}.

(** C10. Whatever the output path, and so whatever its extension, a run
    saves under that path with the format ["png"] and nothing else; when it
    succeeds, the file under the path holds what Pillow's save produced for
    the format ["png"]. *)
Theorem output_is_always_png
    (input_path output_path : string) (quality : Z) (disk : gmap string file_data) :
  let r := run input_path output_path quality disk in
  saves_as output_path "png" (trace r.2) ∧
  ∀ msg t, r.1 = Val (true, msg, t) →
    ∃ img data,
      pil_save img output_path "png" quality true true = Val data ∧
      files r.2 !! output_path = Some data.
Proof.
  intros r.
  destruct (run input_path output_path quality disk) as [o s'] eqn:Hrun.
  subst r. cbn [fst snd]. revert Hrun.
  all_paths; intros [= <- <-]; cbn [files trace];
    (split; [unfold saves_as; repeat constructor |]);
    intros msg t [= ? ?]; subst.
  eexists _, _. split; [eassumption |]. apply lookup_insert_eq.
Qed.

Context {pixels : Type} (pixel_data : pil_image → pixels)
        (decode : file_data → option pixels).

(** C7. Given a PNG writer that is lossless and ignores [quality], two
    runs on the same input that differ in [quality] alone return the same
    triple and leave the same files.  A run that succeeds has saved: it
    handed exactly one image to the writer, the conversion to RGB of what
    was read, the same image in both runs; the file under the output path
    holds what the writer produced for it, the same in both runs, and
    decodes to the pixels of that image.  More generally, whenever the save
    of an image returns in a run, the file under the output path decodes to
    the pixels of the image that was handed to the save. *)
Theorem quality_has_no_effect
    (input_path output_path : string) (q1 q2 : Z) (disk : gmap string file_data) :
  png_lossless pixel_data decode → png_ignores_quality →
  let r1 := run input_path output_path q1 disk in
  let r2 := run input_path output_path q2 disk in
  r1.1 = r2.1 ∧ files r1.2 = files r2.2 ∧
  (∀ msg t, r1.1 = Val (true, msg, t) →
     ∃ img rgb data,
       pil_convert img "RGB" = Val rgb ∧
       saves (trace r1.2) = [ImageSave rgb output_path "png" q1 true true] ∧
       saves (trace r2.2) = [ImageSave rgb output_path "png" q2 true true] ∧
       pil_save rgb output_path "png" q1 true true = Val data ∧
       files r1.2 !! output_path = Some data ∧
       files r2.2 !! output_path = Some data ∧
       decode data = Some (pixel_data rgb)) ∧
  (∀ img fp format q o p data,
     ImageSave img fp format q o p ∈ trace r1.2 →
     pil_save img fp format q o p = Val data →
     files r1.2 !! output_path = Some data ∧ decode data = Some (pixel_data img)).
Proof.
  intros Hlossless Hquality r1 r2.
  destruct (run input_path output_path q1 disk) as [o1 s1] eqn:Hrun1.
  destruct (run input_path output_path q2 disk) as [o2 s2] eqn:Hrun2.
  subst r1 r2. cbn [fst snd]. revert Hrun1 Hrun2.
  exec;
    repeat (first [ known_call
                  | rewrite (Hquality _ output_path q2 q1 true true)
                  | open_call ]; exec).
  all: intros [= <- <-] [= <- <-]; cbn [files trace].
  all: split; [reflexivity |]; split; [reflexivity |].
  all: split;
    [ intros msg t [= ? ?]; subst;
      eexists _, _, _;
      (split;
       [| split; [reflexivity |]; split; [reflexivity |]; split; [eassumption |];
          split; [apply lookup_insert_eq |]; split; [apply lookup_insert_eq |];
          eapply Hlossless; eassumption ]);
      eassumption
    | ].
  all: intros img fp format q o p data Hin Hsave.
  all: rewrite ?elem_of_cons, elem_of_nil in Hin.
  all: repeat (destruct Hin as [Hin | Hin]); try discriminate Hin; try contradiction.
  all: injection Hin as -> -> -> -> -> ->.
  all: try congruence.
  split; [| eapply Hlossless; eassumption].
  rewrite lookup_insert_eq. congruence.
Qed.

End Output.

(** ** Further properties of the function *)

Section Selection.
Context {A : Type} (key : A → Q).


End Selection.

Section Further.
Context {ext : Externals}.





End Further.

Section Footprint.
Context {ext : Externals}.




End Footprint.

Section Edges.
Context {ext : Externals}.




End Edges.

(** ** The script *)
Section ScriptFacts.
Context {ext : Externals}.








End ScriptFacts.

(** ** Exact scaling by a power of two *)
Module PowerOfTwo.
Import PyFloat.










End PowerOfTwo.

(** ** The theorems at work on the synthetic pyramid *)
Module Runs.
Import Synthetic.

Lemma specimen_detects :
  detects (ext := specimen_env) the_path specimen (64, 48) (10, 10, 50, 30).
Proof.
  split; [reflexivity |].
  eexists _, _, _, _.
  split; [split; [reflexivity | eexists _, _; repeat split; reflexivity] |].
  split; [split; reflexivity |].
  split; [reflexivity | vm_compute; reflexivity].
Defined.

Lemma damaged_detects :
  detects (ext := damaged_env) the_path damaged (64, 48) (10, 10, 50, 30).
Proof.
  split; [reflexivity |].
  eexists _, _, _, _.
  split; [split; [reflexivity | eexists _, _; repeat split; reflexivity] |].
  split; [split; reflexivity |].
  split; [reflexivity | vm_compute; reflexivity].
Defined.

Lemma scaled_region_is_requested_witness :
  scales_to (ext := specimen_env) specimen PyFloat.lit_16
    (10, 10, 50, 30) (160, 160, 800, 480) ∧
  reads (trace (run (ext := specimen_env) the_path "output/Ex.png" 80 ∅).2) =
    [ReadRegion (0, 0) 2 (64, 48); ReadRegion (160, 160) 0 (800, 480)].
Proof.
  apply (scaled_region_is_requested (ext := specimen_env)
           the_path "output/Ex.png" 80 ∅ specimen (64, 48) 10 10 50 30
           PyFloat.lit_16 160 160 800 480);
    first [ exact specimen_detects | lia | vm_compute; reflexivity ].
Defined.

Lemma specimen_low_res :
  low_res_array (ext := specimen_env) specimen (64, 48) (s_plane specimen).
Proof. split; [reflexivity | eexists _, _; repeat split; reflexivity]. Defined.

Lemma blank_low_res :
  low_res_array (ext := blank_env) blank (64, 48) (s_plane blank).
Proof. split; [reflexivity | eexists _, _; repeat split; reflexivity]. Defined.

Lemma roi_detection_witness :
  let r := run (ext := specimen_env) the_path "output/Ex.png" 80 ∅ in
  py_getitem (level_dimensions (Externals := specimen_env) specimen)
             (level_count (Externals := specimen_env) specimen - 1) = Val (64, 48) ∧
  head (reads (trace r.2)) = Some (ReadRegion (0, 0) 2 (64, 48)) ∧
  (∀ s, find_contours (ext := specimen_env) (s_plane specimen) s
        = (Val [(10, 10, 50, 30)], s)) ∧
  (∀ i j, pixel (mask_of (s_plane specimen)) i j =
          match pixel (s_plane specimen) i j with
          | Some p => Some (if p >? 10 then 255 else 0)
          | None => None
          end) ∧
  ([(10, 10, 50, 30)] ≠ [] →
   ∃ c, c ∈ [(10, 10, 50, 30)] ∧
        (∀ c', c' ∈ [(10, 10, 50, 30)] →
               (cv2_contourArea (Externals := specimen_env) c'
                <= cv2_contourArea (Externals := specimen_env) c)%Q) ∧
        ∀ s, (largest_bounding_rect (ext := specimen_env) [(10, 10, 50, 30)] s).1
             = Val c) ∧
  (no_region_detected (ext := specimen_env) the_path "output/Ex.png" 80 ∅
   ↔ [(10, 10, 50, 30)] = []) ∧
  ([(10, 10, 50, 30)] = [] →
   ∃ t, r.1 = Val (false, "Error: No object detected", t)).
Proof.
  apply (roi_detection (ext := specimen_env) the_path "output/Ex.png" 80 ∅
           specimen (64, 48) (s_plane specimen) (s_plane specimen)
           [(10, 10, 50, 30)]).
  - reflexivity.
  - exact specimen_low_res.
  - split; [reflexivity | vm_compute; reflexivity].
Defined.

Lemma black_slide_leaves_total_zero_witness :
  let r := run (ext := blank_env) the_path "output/Ex.png" 80 ∅ in
  is_black (mask_of (s_plane blank)) = true ∧
  ∃ t, r.1 = Val (false, "Error: No object detected", t) ∧
       t !! "total" = Some 0%Q ∧ ¬ (0 < 0)%Q ∧
       timing_writes "total" (trace r.2) = 0%nat.
Proof.
  apply (black_slide_leaves_total_zero (ext := blank_env) the_path "output/Ex.png" 80 ∅
           blank (64, 48) (s_plane blank) (s_plane blank)).
  - reflexivity.
  - exact blank_low_res.
  - reflexivity.
  - vm_compute; reflexivity.
  - vm_compute; reflexivity.
Defined.

Lemma full_read_failure_witness :
  let r := run (ext := damaged_env) the_path "output/Ex.png" 80 ∅ in
  ∃ t, r.1 = Val (false, "Error: " ++ str read_error, t) ∧
       t !! "detection" = Some (clock (Externals := damaged_env) 2
                                - clock (Externals := damaged_env) 1)%Q ∧
       t !! "coordinate_calc" = Some (clock (Externals := damaged_env) 4
                                      - clock (Externals := damaged_env) 3)%Q ∧
       t !! "image_reading" = Some 0%Q ∧
       timing_writes "detection" (trace r.2) = 1%nat ∧
       timing_writes "coordinate_calc" (trace r.2) = 1%nat ∧
       timing_writes "image_reading" (trace r.2) = 0%nat.
Proof.
  apply (full_read_failure (ext := damaged_env) the_path "output/Ex.png" 80 ∅
           damaged (64, 48) (10, 10, 50, 30) PyFloat.lit_16 160 160 800 480 read_error).
  - exact damaged_detects.
  - repeat split; vm_compute; reflexivity.
  - reflexivity.
Defined.

Lemma errors_do_not_escape_witness :
  ∃ ok msg t,
    (run (ext := damaged_env) "missing.mrxs" "output/Ex.png" 80 ∅).1 = Val (ok, msg, t).
Proof.
  exact (proj1 (errors_do_not_escape (ext := damaged_env)
                  "missing.mrxs" "output/Ex.png" 80 ∅)).
Defined.

Lemma end_to_end_scenario_witness :
  let r := run (ext := specimen_env) the_path "output/Ex.png" 80 ∅ in
  scales_to (ext := specimen_env) specimen PyFloat.lit_16
    (10, 10, 50, 30) (160, 160, 800, 480) ∧
  reads (trace r.2) = [ReadRegion (0, 0) 2 (64, 48); ReadRegion (160, 160) 0 (800, 480)] ∧
  ∃ t, r.1 = Val (true, "Successfully saved 800x480 cropped image (original size)", t).
Proof.
  apply (end_to_end_scenario (ext := specimen_env) the_path "output/Ex.png" 80 ∅
           specimen (64, 48) (Crop "RGBA" 160 160 800 480) (Crop "RGB" 160 160 800 480)
           (Stored "png" (Crop "RGB" 160 160 800 480) 0));
    first [ exact specimen_detects | reflexivity ].
Defined.

Lemma specimen_png_lossless :
  png_lossless (ext := specimen_env) (fun img : image => img) decode.
Proof. intros img fp q o p data [= <-]. reflexivity. Defined.

Lemma specimen_png_ignores_quality : png_ignores_quality (ext := specimen_env).
Proof. intros img fp q q' o p. reflexivity. Defined.

Lemma quality_has_no_effect_witness :
  let r1 := run (ext := specimen_env) the_path "output/Ex.png" 80 ∅ in
  let r2 := run (ext := specimen_env) the_path "output/Ex.png" 10 ∅ in
  r1.1 = r2.1 ∧ files r1.2 = files r2.2 ∧
  (∀ msg t, r1.1 = Val (true, msg, t) →
     ∃ img rgb data,
       pil_convert (Externals := specimen_env) img "RGB" = Val rgb ∧
       saves (trace r1.2) = [ImageSave rgb "output/Ex.png" "png" 80 true true] ∧
       saves (trace r2.2) = [ImageSave rgb "output/Ex.png" "png" 10 true true] ∧
       pil_save (Externals := specimen_env) rgb "output/Ex.png" "png" 80 true true
         = Val data ∧
       files r1.2 !! "output/Ex.png" = Some data ∧
       files r2.2 !! "output/Ex.png" = Some data ∧
       decode data = Some rgb) ∧
  (∀ img fp format q o p data,
     ImageSave img fp format q o p ∈ trace r1.2 →
     pil_save (Externals := specimen_env) img fp format q o p = Val data →
     files r1.2 !! "output/Ex.png" = Some data ∧ decode data = Some img).
Proof.
  apply (quality_has_no_effect (ext := specimen_env) (fun img : image => img) decode
           the_path "output/Ex.png" 80 10 ∅).
  - exact specimen_png_lossless.
  - exact specimen_png_ignores_quality.
Defined.


Lemma damaged_clock_monotone : monotone_clock (ext := damaged_env).
Proof.
  intros n m Hnm. cbn. rewrite <- Zle_Qle. lia.
Defined.

Lemma timing_is_well_formed_witness :
  let r := run (ext := damaged_env) the_path "output/Ex.png" 80 ∅ in
  ∃ ok msg t,
    r.1 = Val (ok, msg, t) ∧
    t = timing_info r.2 ∧
    dom t = stage_keys ∧
    (∀ k, (timing_writes k (trace r.2) ≤ 1)%nat) ∧
    (∀ k, k ∈ stage_keys → timing_writes k (trace r.2) = 0%nat → t !! k = Some 0%Q) ∧
    map_Forall (fun _ v => (0 <= v)%Q) t.
Proof.
  destruct (timing_is_well_formed (ext := damaged_env) the_path "output/Ex.png" 80 ∅)
    as (ok & msg & t & Hret & Ht & Hdom & Honce & Hzero & Hnonneg).
  exists ok, msg, t.
  repeat (split; [assumption |]).
  exact (Hnonneg damaged_clock_monotone).
Defined.

(** C9, as the claim has it, fails.  On the specimen with the clock run
    backwards the run succeeds and returns a dictionary in which
    [detection] is negative. *)
Lemma backward_clock_counterexample :
  let r := run (ext := rewound specimen_env) the_path "output/Ex.png" 80 ∅ in
  ∃ ok msg t,
    r.1 = Val (ok, msg, t) ∧
    t !! "detection" = Some (-1 # 1)%Q ∧
    ¬ map_Forall (fun _ v => (0 <= v)%Q) t.
Proof.
  intros r.
  exists true, "Successfully saved 800x480 cropped image (original size)",
    (timing_info r.2).
  assert (Hd : timing_info r.2 !! "detection" = Some (-1 # 1)%Q)
    by (vm_compute; reflexivity).
  split; [vm_compute; reflexivity |].
  split; [exact Hd |].
  intros Hall. specialize (Hall _ _ Hd).
  vm_compute in Hall. apply Hall. reflexivity.
Qed.

End Runs.

(** ** The further properties at work on the synthetic pyramids *)
Module MoreRuns.
Import Synthetic.










End MoreRuns.
